(** * StatefulSet metric families of kube-state-metrics

    A shallow embedding of [internal/store/statefulset.go]: the catalog of
    metric family generators for StatefulSet objects, the wrapper that
    prepends the identity labels to every metric, and the properties of the
    emitted metrics. *)

From Stdlib Require Import ZArith Floats.SpecFloat.
From stdpp Require Import gmap strings list.

Local Open Scope string_scope.
Local Open Scope list_scope.
Local Open Scope Z_scope.

(** ** Numbers *)

(** Go's [float64]: IEEE 754 binary64 (53 bits of precision, exponents below
    1024), as specified by the Standard Library's [spec_float]. *)
Definition float64 := spec_float.

(** The conversion [float64(n)] of an integer ([int32] or [int64]): the
    nearest binary64 value, ties to even. *)
Definition float64_of_int (n : Z) : float64 := binary_normalize 53 1024 n 0 false.

(** The result of an [int64] operation whose exact value is [z]: the value
    of the same residue modulo 2^64 in the [int64] range. *)
Definition wrap_int64 (z : Z) : Z := (z + 2 ^ 63) mod 2 ^ 64 - 2 ^ 63.

(** The untyped constant [1] where a [float64] is expected. *)
Definition float64_one : float64 := S754_finite false 4503599627370496 (-52).

(** ** Time ([time.Time] under [metav1.Time]) *)

Module Time.

(** [time.Time] as the extractors see it: the seconds elapsed since
    January 1 of year 1, 00:00:00 UTC, and the nanoseconds within the
    second.  The zero value of the struct is that instant. *)
Record t := mk { sec : Z; nsec : Z }.

Definition zero : t := {| sec := 0; nsec := 0 |}.

(** Seconds from year 1 to 1970:
    [(1969*365 + 1969/4 - 1969/100 + 1969/400) * 86400]. *)
Definition unixToInternal : Z :=
  (1969 * 365 + 1969 / 4 - 1969 / 100 + 1969 / 400) * 86400.

(** [IsZero]: the zero time instant. *)
Definition IsZero (x : t) : bool := (sec x =? 0) && (nsec x =? 0).

Definition internalToUnix : Z := - unixToInternal.

(** [Unix]: seconds since January 1, 1970 UTC, an [int64] sum. *)
Definition Unix (x : t) : Z := wrap_int64 (sec x + internalToUnix).

End Time.

(** ** The domain object

    [v1.StatefulSet] of [k8s.io/api/apps/v1], with the fields the extractors
    read.  Integer fields are [int32] or [int64] values held in [Z]; an
    unset field has Go's zero value ([0], the empty string, the empty map);
    [Spec.Replicas] is a [*int32] and may be [nil]. *)

Record StatefulSetSpec := {
  Replicas : option Z                       (* *int32 *)
}.

Record StatefulSetStatus := {
  ObservedGeneration : Z;                   (* int64 *)
  StatusReplicas     : Z;                   (* Status.Replicas, int32 *)
  ReadyReplicas      : Z;                   (* int32 *)
  CurrentReplicas    : Z;                   (* int32 *)
  UpdatedReplicas    : Z;                   (* int32 *)
  CurrentRevision    : string;
  UpdateRevision     : string
}.

Record StatefulSet := {
  Name              : string;
  Namespace         : string;
  Generation        : Z;                    (* ObjectMeta.Generation, int64 *)
  CreationTimestamp : Time.t;
  Labels            : gmap string string;
  Annotations       : gmap string string;
  Spec              : StatefulSetSpec;
  Status            : StatefulSetStatus
}.

(** ** Metrics ([pkg/metric]) *)

Inductive MetricType := Gauge | Counter.

(** [metric.Metric]: two parallel label arrays and a value.  A [nil] slice
    and an empty one are the same list. *)
Record Metric := {
  LabelKeys   : list string;
  LabelValues : list string;
  Value       : float64
}.

(** [metric.Family], with the one field the extractors fill. *)
Record Family := {
  Metrics : list Metric
}.

(** ** Go slices and [append] *)

Module Slice.

(** A [[]string] whose window starts at the first cell of its backing
    array: the array and the length of the window.  The capacity is the
    size of the array. *)
Record t := mk { array : list string; len : nat }.

Definition cap (s : t) : nat := length (array s).

(** The elements a reader of the slice sees. *)
Definition elems (s : t) : list string := take (len s) (array s).

(** A composite literal [[]string{x1, ..., xn}]: a fresh array of exactly
    [n] cells, so length and capacity are both [n]. *)
Definition literal (xs : list string) : t := mk xs (length xs).

(** [append(s, xs...)].  When the capacity suffices the new elements are
    written into the backing array of [s], after its window, and the
    result shares that array; otherwise the elements are copied into a
    fresh array and [s] is left alone.  The result is paired with [s] as
    it is after the call.  (How much spare capacity a fresh array gets is
    the runtime's choice; nothing here appends to a result again, so the
    fresh array is given none.) *)
Definition append (s : t) (xs : list string) : t * t :=
  let n := (len s + length xs)%nat in
  if (n <=? cap s)%nat
  then let a := take (len s) (array s) ++ xs ++ drop n (array s) in
       (mk a n, mk a (len s))
  else (literal (elems s ++ xs), s).

End Slice.

(** ** Package-level state

    [descStatefulSetLabelsName] and [descStatefulSetLabelsHelp] are strings
    and nothing assigns them; [descStatefulSetLabelsDefaultLabels] is a slice,
    whose backing array every call of the wrapper hands to [append]. *)

Definition descStatefulSetLabelsName : string := "kube_statefulset_labels".
Definition descStatefulSetLabelsHelp : string :=
  "Kubernetes labels converted to Prometheus labels.".

Record Store := {
  descStatefulSetLabelsDefaultLabels : Slice.t
}.

(** The state after package initialisation. *)
Definition initStore : Store :=
  {| descStatefulSetLabelsDefaultLabels := Slice.literal ["namespace"; "statefulset"] |}.

(** ** Calls that may panic *)

Inductive panic :=
| InterfaceConversion (dynamicType : option string).
    (* "interface conversion: interface {} is T, not *v1.StatefulSet";
       [None] for the nil interface *)

Inductive outcome (A : Type) :=
| Returned (a : A)
| Panicked (p : panic).
Arguments Returned {A} a.
Arguments Panicked {A} p.

(** A value of type [interface{}], by its dynamic type. *)
Inductive object :=
| StatefulSetPtr (s : StatefulSet)        (* a non-nil [*v1.StatefulSet] *)
| OtherValue (dynamicType : string)       (* a value of another dynamic type *)
| NilInterface.                           (* the nil interface: no dynamic type *)

(** ** Family generators ([pkg/metric_generator])

    The fields [Name], [Help], [Type] and [DeprecatedVersion] of
    [generator.FamilyGenerator] carry an [F] here, [Name] being a field of
    the StatefulSet and [Type] a keyword. *)

Definition generateFunc := object -> Store -> outcome Family * Store.

Record FamilyGenerator := {
  FName              : string;
  FHelp              : string;
  FType              : MetricType;
  FDeprecatedVersion : string;
  GenerateFunc       : generateFunc
}.

Definition NewFamilyGenerator (name help : string) (metricType : MetricType)
    (deprecatedVersion : string) (f : generateFunc) : FamilyGenerator :=
  {| FName := name; FHelp := help; FType := metricType;
     FDeprecatedVersion := deprecatedVersion; GenerateFunc := f |}.

(** ** The identity label wrapper *)

(** The loop [for _, m := range metricFamily.Metrics] of
    [wrapStatefulSetFunc]: each metric (a pointer to a struct of its own) gets
    the default label keys and the object's namespace and name put in front
    of its labels.  The store is threaded through the calls of [append] on
    the package-level slice.  A metric holds the elements its slices have
    when [append] returns; they could only change afterwards through a write
    into a shared backing array, and [append_full] below shows that the
    array of the default labels is never written.  The metrics are taken as
    values: this is the loop on structs listed once each, as the extractors
    of the catalog list them; [prependLabelsAt] is the loop on pointers, and
    [distinct_structs_as_values] relates the two. *)
Fixpoint prependLabels (statefulSet : StatefulSet) (ms : list Metric) (st : Store)
    : list Metric * Store :=
  match ms with
  | [] => ([], st)
  | m :: rest =>
      let '(keys, defaults) :=
        Slice.append (descStatefulSetLabelsDefaultLabels st) (LabelKeys m) in
      let '(values, _) :=
        Slice.append (Slice.literal [Namespace statefulSet; Name statefulSet])
                     (LabelValues m) in
      let m' := {| LabelKeys := Slice.elems keys;
                   LabelValues := Slice.elems values;
                   Value := Value m |} in
      let '(rest', st') :=
        prependLabels statefulSet rest
          {| descStatefulSetLabelsDefaultLabels := defaults |} in
      (m' :: rest', st')
  end.

Definition wrapStatefulSetFunc (f : StatefulSet -> Family) : generateFunc :=
  fun obj st =>
    match obj with
    | StatefulSetPtr statefulSet =>
        let metricFamily := f statefulSet in
        let '(ms, st') := prependLabels statefulSet (Metrics metricFamily) st in
        (Returned {| Metrics := ms |}, st')
    | OtherValue T => (Panicked (InterfaceConversion (Some T)), st)
    | NilInterface => (Panicked (InterfaceConversion None), st)
    end.

(** ** The catalog of StatefulSet metric families *)

Section Catalog.

(** The label composers of the store package, which [statefulset.go]
    calls and does not define: from a metadata map and an allow-list to
    the label keys and the label values. *)
Variable createLabelKeysValues :
  gmap string string -> list string -> list string * list string.
Variable createAnnotationKeysValues :
  gmap string string -> list string -> list string * list string.

Definition statefulSetMetricFamilies (allowLabelsList allowAnnotationsList : list string)
    : list FamilyGenerator :=
  let families := [
    NewFamilyGenerator
      "kube_statefulset_created"
      "Unix creation timestamp"
      Gauge
      ""
      (wrapStatefulSetFunc (fun s =>
        let ms := [] in
        let ms :=
          if negb (Time.IsZero (CreationTimestamp s))
          then ms ++ [ {| LabelKeys := []; LabelValues := [];
                          Value := float64_of_int (Time.Unix (CreationTimestamp s)) |} ]
          else ms in
        {| Metrics := ms |}));
    NewFamilyGenerator
      "kube_statefulset_status_replicas"
      "The number of replicas per StatefulSet."
      Gauge
      ""
      (wrapStatefulSetFunc (fun s =>
        {| Metrics := [ {| LabelKeys := []; LabelValues := [];
                           Value := float64_of_int (StatusReplicas (Status s)) |} ] |}));
    NewFamilyGenerator
      "kube_statefulset_status_replicas_current"
      "The number of current replicas per StatefulSet."
      Gauge
      ""
      (wrapStatefulSetFunc (fun s =>
        {| Metrics := [ {| LabelKeys := []; LabelValues := [];
                           Value := float64_of_int (CurrentReplicas (Status s)) |} ] |}));
    NewFamilyGenerator
      "kube_statefulset_status_replicas_ready"
      "The number of ready replicas per StatefulSet."
      Gauge
      ""
      (wrapStatefulSetFunc (fun s =>
        {| Metrics := [ {| LabelKeys := []; LabelValues := [];
                           Value := float64_of_int (ReadyReplicas (Status s)) |} ] |}));
    NewFamilyGenerator
      "kube_statefulset_status_replicas_updated"
      "The number of updated replicas per StatefulSet."
      Gauge
      ""
      (wrapStatefulSetFunc (fun s =>
        {| Metrics := [ {| LabelKeys := []; LabelValues := [];
                           Value := float64_of_int (UpdatedReplicas (Status s)) |} ] |}));
    NewFamilyGenerator
      "kube_statefulset_status_observed_generation"
      "The generation observed by the StatefulSet controller."
      Gauge
      ""
      (wrapStatefulSetFunc (fun s =>
        {| Metrics := [ {| LabelKeys := []; LabelValues := [];
                           Value := float64_of_int (ObservedGeneration (Status s)) |} ] |}));
    NewFamilyGenerator
      "kube_statefulset_replicas"
      "Number of desired pods for a StatefulSet."
      Gauge
      ""
      (wrapStatefulSetFunc (fun s =>
        let ms := [] in
        let ms :=
          match Replicas (Spec s) with
          | Some replicas =>
              ms ++ [ {| LabelKeys := []; LabelValues := [];
                         Value := float64_of_int replicas |} ]
          | None => ms
          end in
        {| Metrics := ms |}));
    NewFamilyGenerator
      "kube_statefulset_metadata_generation"
      "Sequence number representing a specific generation of the desired state for the StatefulSet."
      Gauge
      ""
      (wrapStatefulSetFunc (fun s =>
        {| Metrics := [ {| LabelKeys := []; LabelValues := [];
                           Value := float64_of_int (Generation s) |} ] |}));
    NewFamilyGenerator
      "kube_statefulset_status_current_revision"
      "Indicates the version of the StatefulSet used to generate Pods in the sequence [0,currentReplicas)."
      Gauge
      ""
      (wrapStatefulSetFunc (fun s =>
        {| Metrics := [ {| LabelKeys := ["revision"];
                           LabelValues := [CurrentRevision (Status s)];
                           Value := float64_one |} ] |}));
    NewFamilyGenerator
      "kube_statefulset_status_update_revision"
      "Indicates the version of the StatefulSet used to generate Pods in the sequence [replicas-updatedReplicas,replicas)"
      Gauge
      ""
      (wrapStatefulSetFunc (fun s =>
        {| Metrics := [ {| LabelKeys := ["revision"];
                           LabelValues := [UpdateRevision (Status s)];
                           Value := float64_one |} ] |}))
  ] in
  let families :=
    if (0 <? length allowLabelsList)%nat
    then families ++ [
      NewFamilyGenerator
        descStatefulSetLabelsName
        descStatefulSetLabelsHelp
        Gauge
        ""
        (wrapStatefulSetFunc (fun s =>
          let '(labelKeys, labelValues) :=
            createLabelKeysValues (Labels s) allowLabelsList in
          {| Metrics := [ {| LabelKeys := labelKeys;
                             LabelValues := labelValues;
                             Value := float64_one |} ] |})) ]
    else families in
  let families :=
    if (0 <? length allowAnnotationsList)%nat
    then families ++ [
      NewFamilyGenerator
        "kube_statefulset_annotations"
        "Kubernetes annotations converted to Prometheus labels."
        Gauge
        ""
        (wrapStatefulSetFunc (fun s =>
          let '(annotationKeys, annotationValues) :=
            createAnnotationKeysValues (Annotations s) allowAnnotationsList in
          {| Metrics := [ {| LabelKeys := annotationKeys;
                             LabelValues := annotationValues;
                             Value := float64_one |} ] |})) ]
    else families in
  families.

End Catalog.

(** The generator of the family called [name], as the exposition layer finds
    it: the first entry of the catalog under that name. *)
Definition family (name : string) (families : list FamilyGenerator)
    : option FamilyGenerator :=
  List.find (fun g => String.eqb (FName g) name) families.

(** The label pairs of a metric, keys zipped with values. *)
Definition labelPairs (m : Metric) : list (string * string) :=
  zip (LabelKeys m) (LabelValues m).

(** ** The label composer, from its contract *)

Module LabelComposer.

(** Modelled from the spec: [createLabelKeysValues] of the store package's
    helpers, which [statefulset.go] calls and does not define.  Section 4.4: the keys are
    exactly the allow-list, in its order, and the value at each position is
    the map's value for that key, or the empty string if the map has
    none. *)
Definition createLabelKeysValues (labels : gmap string string)
    (allowList : list string) : list string * list string :=
  (allowList, (fun k => default "" (labels !! k)) <$> allowList).

(** Modelled from the spec: [createAnnotationKeysValues] of the store
    package's helpers, which [statefulset.go] calls and does not define.
    Section 4.1 has
    the annotation family symmetric to the label family, under the same
    contract of section 4.4. *)
Definition createAnnotationKeysValues (annotations : gmap string string)
    (allowList : list string) : list string * list string :=
  (allowList, (fun k => default "" (annotations !! k)) <$> allowList).

End LabelComposer.

(** The catalog with the composers of the contract. *)
Definition catalog (allowLabelsList allowAnnotationsList : list string)
    : list FamilyGenerator :=
  statefulSetMetricFamilies LabelComposer.createLabelKeysValues
    LabelComposer.createAnnotationKeysValues allowLabelsList allowAnnotationsList.

(** ** What the wrapper makes of one metric *)

(** A metric with the default label keys and the object's namespace and name
    in front of its labels. *)
Definition withIdentity (s : StatefulSet) (m : Metric) : Metric :=
  {| LabelKeys := ["namespace"; "statefulset"] ++ LabelKeys m;
     LabelValues := [Namespace s; Name s] ++ LabelValues m;
     Value := Value m |}.

(** A sample object: namespace [ns1], name [web], three ready replicas, and
    every other field unset. *)
Definition web : StatefulSet :=
  {| Name := "web"; Namespace := "ns1"; Generation := 0;
     CreationTimestamp := Time.zero;
     Labels := ∅; Annotations := ∅;
     Spec := {| Replicas := None |};
     Status := {| ObservedGeneration := 0; StatusReplicas := 0;
                  ReadyReplicas := 3; CurrentReplicas := 0;
                  UpdatedReplicas := 0;
                  CurrentRevision := ""; UpdateRevision := "" |} |}.

(** The sample object with the labels [a=1, b=2, c=3]. *)
Definition labelled : StatefulSet :=
  {| Name := Name web; Namespace := Namespace web; Generation := Generation web;
     CreationTimestamp := CreationTimestamp web;
     Labels := <["a" := "1"]> (<["b" := "2"]> (<["c" := "3"]> ∅));
     Annotations := Annotations web;
     Spec := Spec web; Status := Status web |}.

(** The sample object after more than 2^53 changes of its desired state. *)
Definition worn : StatefulSet :=
  {| Name := Name web; Namespace := Namespace web; Generation := 2 ^ 53 + 1;
     CreationTimestamp := CreationTimestamp web;
     Labels := Labels web; Annotations := Annotations web;
     Spec := Spec web; Status := Status web |}.

(** The default labels of a store have no spare capacity. *)
Definition fullDefaults (st : Store) : Prop :=
  Slice.len (descStatefulSetLabelsDefaultLabels st)
  = Slice.cap (descStatefulSetLabelsDefaultLabels st).

(** The six counter families and the field each one reads. *)
Definition counterFields (s : StatefulSet) : list (string * Z) :=
  [ ("kube_statefulset_status_replicas", StatusReplicas (Status s));
    ("kube_statefulset_status_replicas_current", CurrentReplicas (Status s));
    ("kube_statefulset_status_replicas_ready", ReadyReplicas (Status s));
    ("kube_statefulset_status_replicas_updated", UpdatedReplicas (Status s));
    ("kube_statefulset_status_observed_generation", ObservedGeneration (Status s));
    ("kube_statefulset_metadata_generation", Generation s) ].

(** The two revision families and the field each one reads. *)
Definition revisionFields (s : StatefulSet) : list (string * string) :=
  [ ("kube_statefulset_status_current_revision", CurrentRevision (Status s));
    ("kube_statefulset_status_update_revision", UpdateRevision (Status s)) ].

(** The names of the ten families every catalog starts with. *)
Definition baseFamilyNames : list string :=
  [ "kube_statefulset_created";
    "kube_statefulset_status_replicas";
    "kube_statefulset_status_replicas_current";
    "kube_statefulset_status_replicas_ready";
    "kube_statefulset_status_replicas_updated";
    "kube_statefulset_status_observed_generation";
    "kube_statefulset_replicas";
    "kube_statefulset_metadata_generation";
    "kube_statefulset_status_current_revision";
    "kube_statefulset_status_update_revision" ].

(** A call of [statefulSetMetricFamilies].  The function has no error
    result and its body (a composite literal, closures, [append] to a local
    slice, two tests of [len]) has no operation that can panic and no check
    of its arguments: every call returns the slice of families. *)
Definition callStatefulSetMetricFamilies
    (createLabelKeysValues createAnnotationKeysValues :
       gmap string string -> list string -> list string * list string)
    (allowLabelsList allowAnnotationsList : list string)
    : outcome (list FamilyGenerator) :=
  Returned (statefulSetMetricFamilies createLabelKeysValues
              createAnnotationKeysValues allowLabelsList allowAnnotationsList).

(** An allow-list that names a key twice. *)
Definition hasDuplicateKeys (allowList : list string) : bool :=
  negb (bool_decide (NoDup allowList)).

(** An allow-list that names one of the default label keys. *)
Definition collidesWithDefaultLabels (allowList : list string) : bool :=
  existsb (fun k => bool_decide (k ∈ ["namespace"; "statefulset"])) allowList.

(** The metrics the family called [name] emits for a StatefulSet, from the
    initial store; [None] if the catalog has no such family or the call
    panics. *)
Definition emitted (name : string) (families : list FamilyGenerator)
    (s : StatefulSet) : option (list Metric) :=
  match family name families with
  | Some g =>
      match GenerateFunc g (StatefulSetPtr s) initStore with
      | (Returned fam, _) => Some (Metrics fam)
      | (Panicked _, _) => None
      end
  | None => None
  end.

(** The integer a [float64] stands for, if it is finite and integral: the
    mantissa scaled by the power of two of the exponent. *)
Definition float64_to_int (x : float64) : option Z :=
  match x with
  | S754_zero _ => Some 0
  | S754_finite s m e =>
      let v := if s then Z.neg m else Z.pos m in
      if 0 <=? e then Some (v * 2 ^ e)
      else if v mod 2 ^ (- e) =? 0 then Some (v / 2 ^ (- e)) else None
  | S754_infinity _ | S754_nan => None
  end.

(** ** The loop of the wrapper on metric structs in memory

    [metricFamily.Metrics] is a [[]*metric.Metric], and the loop of the
    wrapper assigns the label slices of the structs the pointers lead to.
    [prependLabels] above takes the metrics as values, which is what the
    loop does to structs that are listed once each, as long as [append]
    writes into no array a metric shares.  The definitions below keep the
    structs in a heap under their addresses, so that a struct listed twice
    is one struct, and keep apart the slices that lie on the backing array
    of the package-level default labels, the one array the loop may write. *)

(** A [[]string] field of a metric struct. *)
Inductive labelSlice :=
| Own (xs : list string)   (* on cells the loop never writes: its elements *)
| OnDefaults (n : nat).    (* the first [n] cells of the array of the default labels *)

(** The elements a reader of the slice sees in a given state. *)
Definition readSlice (st : Store) (x : labelSlice) : list string :=
  match x with
  | Own xs => xs
  | OnDefaults n => take n (Slice.array (descStatefulSetLabelsDefaultLabels st))
  end.

(** A [metric.Metric] in memory. *)
Record MetricStruct := {
  KeysAt   : labelSlice;
  ValuesAt : labelSlice;
  ValueAt  : float64
}.

(** The metric a reader of the struct sees in a given state. *)
Definition readMetric (st : Store) (m : MetricStruct) : Metric :=
  {| LabelKeys := readSlice st (KeysAt m);
     LabelValues := readSlice st (ValuesAt m);
     Value := ValueAt m |}.

(** [append(descStatefulSetLabelsDefaultLabels, xs...)] with the place of
    the result: on the array of the default labels when the capacity
    suffices, on a fresh array otherwise. *)
Definition appendToDefaults (d : Slice.t) (xs : list string) : labelSlice * Slice.t :=
  let '(r, d') := Slice.append d xs in
  (if (Slice.len d + length xs <=? Slice.cap d)%nat
   then OnDefaults (Slice.len r)
   else Own (Slice.elems r),
   d').

(** The loop [for _, m := range metricFamily.Metrics] on the pointers of the
    family.  The keys of the struct are read, appended to the default labels
    and assigned; then its values are read, appended to a fresh literal of
    the namespace and the name (whose result is on an array of its own) and
    assigned.  [None] is the panic of dereferencing a pointer that leads to
    no struct. *)
Fixpoint prependLabelsAt (statefulSet : StatefulSet) (ps : list positive)
    (h : gmap positive MetricStruct) (st : Store)
    : option (gmap positive MetricStruct * Store) :=
  match ps with
  | [] => Some (h, st)
  | p :: rest =>
      match h !! p with
      | None => None
      | Some m =>
          let '(keys, defaults) :=
            appendToDefaults (descStatefulSetLabelsDefaultLabels st)
                             (readSlice st (KeysAt m)) in
          let st' := {| descStatefulSetLabelsDefaultLabels := defaults |} in
          let '(values, _) :=
            Slice.append (Slice.literal [Namespace statefulSet; Name statefulSet])
                         (readSlice st' (ValuesAt m)) in
          let m' := {| KeysAt := keys;
                       ValuesAt := Own (Slice.elems values);
                       ValueAt := ValueAt m |} in
          prependLabelsAt statefulSet rest (<[p := m']> h) st'
      end
  end.



(** * Properties *)

(** ** Slices *)

Lemma slice_eta (s : Slice.t) : Slice.mk (Slice.array s) (Slice.len s) = s.
Proof. by destruct s. Qed.

Lemma elems_literal (xs : list string) : Slice.elems (Slice.literal xs) = xs.
Proof. unfold Slice.elems, Slice.literal; simpl. apply firstn_all. Qed.

(** Appending to a slice without spare capacity never writes into its
    backing array: the result has the old elements followed by the new
    ones, and the slice is as it was. *)
Lemma append_full (s : Slice.t) (xs : list string) :
  Slice.len s = Slice.cap s ->
  Slice.elems (Slice.append s xs).1 = Slice.elems s ++ xs /\
  (Slice.append s xs).2 = s.
Proof.
  intros Hfull. unfold Slice.append.
  destruct (Nat.leb_spec (Slice.len s + length xs) (Slice.cap s)) as [Hle|Hgt]; simpl.
  - assert (xs = []) as -> by (destruct xs; [done | simpl in Hle; lia]).
    rewrite Nat.add_0_r. simpl. rewrite take_drop, slice_eta.
    split; [by rewrite app_nil_r | done].
  - split; [apply elems_literal | done].
Qed.

(** With spare capacity the backing array is written: [append] on the
    two-element window of a four-cell array stores the new element in the
    third cell, which every slice on that array shares. *)
Example append_spare_capacity :
  Slice.append (Slice.mk ["namespace"; "statefulset"; ""; ""] 2) ["revision"] =
    (Slice.mk ["namespace"; "statefulset"; "revision"; ""] 3,
     Slice.mk ["namespace"; "statefulset"; "revision"; ""] 2).
Proof. reflexivity. Qed.

Lemma append_literal (ys xs : list string) :
  Slice.elems (Slice.append (Slice.literal ys) xs).1 = ys ++ xs.
Proof.
  destruct (append_full (Slice.literal ys) xs) as [-> _]; [done |].
  by rewrite elems_literal.
Qed.

(** ** The wrapper on a store whose default labels have no spare capacity *)

Lemma store_eta (st : Store) :
  {| descStatefulSetLabelsDefaultLabels := descStatefulSetLabelsDefaultLabels st |} = st.
Proof. by destruct st. Qed.

Lemma prependLabels_full (s : StatefulSet) (ms : list Metric) (st : Store) :
  fullDefaults st ->
  prependLabels s ms st =
    ((fun m => {| LabelKeys := Slice.elems (descStatefulSetLabelsDefaultLabels st)
                                ++ LabelKeys m;
                  LabelValues := [Namespace s; Name s] ++ LabelValues m;
                  Value := Value m |}) <$> ms, st).
Proof.
  intros Hfull. induction ms as [|m rest IH]; [done |].
  cbn [prependLabels fmap list_fmap].
  destruct (append_full _ (LabelKeys m) Hfull) as [Hk Hd].
  destruct (Slice.append (descStatefulSetLabelsDefaultLabels st) (LabelKeys m))
    as [keys defaults]; simpl in Hk, Hd; subst defaults.
  pose proof (append_literal [Namespace s; Name s] (LabelValues m)) as Hv.
  destruct (Slice.append (Slice.literal [Namespace s; Name s]) (LabelValues m))
    as [values unused]; simpl in Hv.
  rewrite store_eta, IH, Hk, Hv. done.
Qed.

Lemma wrap_initStore (f : StatefulSet -> Family) (s : StatefulSet) :
  wrapStatefulSetFunc f (StatefulSetPtr s) initStore =
    (Returned {| Metrics := withIdentity s <$> Metrics (f s) |}, initStore).
Proof.
  unfold wrapStatefulSetFunc. by rewrite prependLabels_full.
Qed.

(** Whatever the object is, a call of a wrapped extractor leaves a store
    without spare capacity as it was. *)
Lemma wrap_keeps_store (f : StatefulSet -> Family) (obj : object) (st : Store) :
  fullDefaults st -> (wrapStatefulSetFunc f obj st).2 = st.
Proof.
  intros Hfull. destruct obj as [s | T |]; [| done | done].
  unfold wrapStatefulSetFunc. by rewrite prependLabels_full.
Qed.

Local Arguments wrapStatefulSetFunc : simpl never.

(** Every generator of the catalog is a wrapped extractor. *)
Lemma catalog_wrapped cL cA (aL aA : list string) :
  Forall (fun g => exists f, GenerateFunc g = wrapStatefulSetFunc f)
         (statefulSetMetricFamilies cL cA aL aA).
Proof.
  unfold statefulSetMetricFamilies.
  destruct aL, aA; simpl; repeat (constructor; [eexists; reflexivity |]); constructor.
Qed.

(** On a StatefulSet and the initial store, every generator of the catalog
    returns the metrics of its extractor with the identity labels in front,
    and leaves the store as it was. *)
Lemma catalog_generates cL cA (aL aA : list string) (s : StatefulSet) :
  Forall (fun g => exists f,
            GenerateFunc g (StatefulSetPtr s) initStore =
              (Returned {| Metrics := withIdentity s <$> Metrics (f s) |}, initStore))
         (statefulSetMetricFamilies cL cA aL aA).
Proof.
  eapply Forall_impl; [apply catalog_wrapped |].
  intros g [f Hf]. exists f. rewrite Hf. apply wrap_initStore.
Qed.

(** What a family emits, once its generator is known to be a wrapped
    extractor. *)
Lemma emitted_wrapped name families g f (s : StatefulSet) :
  family name families = Some g ->
  GenerateFunc g = wrapStatefulSetFunc f ->
  emitted name families s = Some (withIdentity s <$> Metrics (f s)).
Proof.
  intros Hg Hf. unfold emitted. by rewrite Hg, Hf, wrap_initStore.
Qed.

(** Reduces [emitted name (statefulSetMetricFamilies ...) s] to the metrics
    of the extractor found under [name]. *)
Ltac emitted_from_catalog aL aA :=
  destruct aL, aA;
  (erewrite emitted_wrapped; [| reflexivity | reflexivity]);
  cbn [Metrics fmap list_fmap withIdentity LabelKeys LabelValues Value app].

(** ** Identity labels (C1) *)

(** C1, as the code has it: for every generator of the catalog and every
    metric it emits for a StatefulSet, the first two label keys are
    [namespace] and [statefulset], and the first two label values are the
    object's namespace and name, in that order. *)
Theorem identity_labels_first cL cA (aL aA : list string) (s : StatefulSet) :
  Forall (fun g => exists fam,
            GenerateFunc g (StatefulSetPtr s) initStore = (Returned fam, initStore) /\
            Forall (fun m => take 2 (LabelKeys m) = ["namespace"; "statefulset"] /\
                             take 2 (LabelValues m) = [Namespace s; Name s])
                   (Metrics fam))
         (statefulSetMetricFamilies cL cA aL aA).
Proof.
  eapply Forall_impl; [apply catalog_generates |].
  intros g [f Hf]. eexists; split; [exact Hf |].
  simpl. apply Forall_fmap, Forall_true. intros m; by simpl.
Qed.

(** C1 as stated fails: the second default label key is [statefulset], not
    [name].  For the sample object the status-replicas family emits a metric
    whose first two label keys are not [namespace; name]. *)
Lemma identity_label_key_is_not_name :
  ~ Forall (fun g => forall fam,
              GenerateFunc g (StatefulSetPtr web) initStore = (Returned fam, initStore) ->
              Forall (fun m => take 2 (LabelKeys m) = ["namespace"; "name"] /\
                               take 2 (LabelValues m) = [Namespace web; Name web])
                     (Metrics fam))
           (catalog [] []).
Proof.
  intros H.
  pose proof (proj1 (Forall_lookup _ _) H 1%nat _ eq_refl) as H1.
  specialize (H1 _ eq_refl).
  apply Forall_cons_1 in H1 as [[Hkeys _] _].
  vm_compute in Hkeys. discriminate Hkeys.
Qed.

(** ** The desired replica count (C3) *)

(** C3: the family [kube_statefulset_replicas] emits no metric when
    [Spec.Replicas] is nil, and otherwise exactly one metric, whose value is
    the [float64] conversion of the count it points to; nothing stands in for an absent count. *)
Theorem desired_replicas_family cL cA (aL aA : list string) (s : StatefulSet) :
  emitted "kube_statefulset_replicas" (statefulSetMetricFamilies cL cA aL aA) s =
    Some match Replicas (Spec s) with
         | None => []
         | Some replicas =>
             [ {| LabelKeys := ["namespace"; "statefulset"];
                  LabelValues := [Namespace s; Name s];
                  Value := float64_of_int replicas |} ]
         end.
Proof.
  emitted_from_catalog aL aA; by destruct (Replicas (Spec s)).
Qed.

(** ** Status and generation counters (C4) *)

(** The value of an unset counter. *)
Lemma float64_of_zero : float64_of_int 0 = S754_zero false.
Proof. reflexivity. Qed.

(** C4: each of the six counter families emits exactly one metric, whose
    value is the [float64] conversion of the field it reads; an unset field
    is [0] and converts to the float zero. *)
Theorem counter_families cL cA (aL aA : list string) (s : StatefulSet) :
  Forall (fun '(name, field) =>
            emitted name (statefulSetMetricFamilies cL cA aL aA) s =
              Some [ {| LabelKeys := ["namespace"; "statefulset"];
                        LabelValues := [Namespace s; Name s];
                        Value := float64_of_int field |} ])
         (counterFields s)
  /\ float64_of_int 0 = S754_zero false.
Proof.
  split; [| apply float64_of_zero].
  unfold counterFields.
  repeat (constructor; [by emitted_from_catalog aL aA |]); constructor.
Qed.

(** ** Revisions (C5) *)

Lemma float64_one_is_1 : float64_one = float64_of_int 1.
Proof. reflexivity. Qed.

(** C5: each of the two revision families emits exactly one metric; its
    label keys include [revision], paired with the revision string of the
    status, and its value is the constant 1 whatever the revision string
    is. *)
Theorem revision_families cL cA (aL aA : list string) (s : StatefulSet) :
  Forall (fun '(name, revision) => exists m,
            emitted name (statefulSetMetricFamilies cL cA aL aA) s = Some [m] /\
            "revision" ∈ LabelKeys m /\
            labelPairs m = [ ("namespace", Namespace s); ("statefulset", Name s);
                             ("revision", revision) ] /\
            Value m = float64_of_int 1)
         (revisionFields s).
Proof.
  unfold revisionFields.
  repeat (constructor;
          [eexists; split; [by emitted_from_catalog aL aA |];
           split; [set_solver | done] |]);
  constructor.
Qed.

(** ** The end-to-end scenario (C2) *)

(** C2, as the code has it: for an object of namespace [ns1] and name [web]
    with no creation timestamp, no desired replica count and three ready
    replicas, and a catalog built from empty allow-lists, the creation
    family and the desired-replicas family emit nothing and the
    ready-replicas family emits exactly one metric, labelled
    [namespace=ns1, statefulset=web], of value 3. *)
Theorem end_to_end_scenario cL cA (s : StatefulSet) :
  Namespace s = "ns1" ->
  Name s = "web" ->
  Time.IsZero (CreationTimestamp s) = true ->
  Replicas (Spec s) = None ->
  ReadyReplicas (Status s) = 3 ->
  emitted "kube_statefulset_created" (statefulSetMetricFamilies cL cA [] []) s
    = Some [] /\
  emitted "kube_statefulset_replicas" (statefulSetMetricFamilies cL cA [] []) s
    = Some [] /\
  exists m,
    emitted "kube_statefulset_status_replicas_ready"
      (statefulSetMetricFamilies cL cA [] []) s = Some [m] /\
    labelPairs m = [ ("namespace", "ns1"); ("statefulset", "web") ] /\
    Value m = float64_of_int 3.
Proof.
  intros Hns Hname Hzero Hreplicas Hready.
  split; [| split].
  - erewrite emitted_wrapped; [| reflexivity | reflexivity].
    simpl. by rewrite Hzero.
  - erewrite emitted_wrapped; [| reflexivity | reflexivity].
    simpl. by rewrite Hreplicas.
  - eexists. split; [erewrite emitted_wrapped; [| reflexivity | reflexivity]; reflexivity |].
    unfold labelPairs; simpl. by rewrite Hns, Hname, Hready.
Qed.

Lemma end_to_end_scenario_witness :
  emitted "kube_statefulset_created" (catalog [] []) web = Some [] /\
  emitted "kube_statefulset_replicas" (catalog [] []) web = Some [] /\
  exists m,
    emitted "kube_statefulset_status_replicas_ready" (catalog [] []) web = Some [m] /\
    labelPairs m = [ ("namespace", "ns1"); ("statefulset", "web") ] /\
    Value m = float64_of_int 3.
Proof.
  apply (end_to_end_scenario LabelComposer.createLabelKeysValues
           LabelComposer.createAnnotationKeysValues web);
    reflexivity.
Defined.

(** C2 as stated fails: the metric of the ready-replicas family is not
    labelled [namespace=ns1, name=web]; its second label key is
    [statefulset]. *)
Lemma end_to_end_label_is_not_name :
  ~ (emitted "kube_statefulset_created" (catalog [] []) web = Some [] /\
     emitted "kube_statefulset_replicas" (catalog [] []) web = Some [] /\
     exists m,
       emitted "kube_statefulset_status_replicas_ready" (catalog [] []) web
         = Some [m] /\
       labelPairs m = [ ("namespace", "ns1"); ("name", "web") ] /\
       Value m = float64_of_int 3).
Proof.
  intros (_ & _ & m & Hm & Hpairs & _).
  vm_compute in Hm. injection Hm as <-.
  vm_compute in Hpairs. discriminate Hpairs.
Qed.

(** ** The label and annotation families (C6) *)




(** The sample of the specification: labels [a=1, b=2, c=3] and the
    allow-list [a, c]. *)
Example allow_list_families_sample :
  emitted "kube_statefulset_labels" (catalog ["a"; "c"] []) labelled =
    Some [ {| LabelKeys := ["namespace"; "statefulset"; "a"; "c"];
              LabelValues := ["ns1"; "web"; "1"; "3"];
              Value := float64_one |} ].
Proof. reflexivity. Qed.

(** ** Parallel label arrays (C7) *)

(** C7: for every generator of the catalog and every metric it emits for a
    StatefulSet, there are as many label keys as label values, the
    composers returning as many keys as values for the object's labels and
    annotations. *)
Theorem label_arrays_same_length cL cA (aL aA : list string) (s : StatefulSet) :
  length (cL (Labels s) aL).1 = length (cL (Labels s) aL).2 ->
  length (cA (Annotations s) aA).1 = length (cA (Annotations s) aA).2 ->
  Forall (fun g => exists fam,
            GenerateFunc g (StatefulSetPtr s) initStore = (Returned fam, initStore) /\
            Forall (fun m => length (LabelKeys m) = length (LabelValues m))
                   (Metrics fam))
         (statefulSetMetricFamilies cL cA aL aA).
Proof.
  intros HL HA. unfold statefulSetMetricFamilies.
  destruct aL as [|l aL], aA as [|a aA]; simpl;
    repeat (constructor;
            [eexists; split; [apply wrap_initStore |]; simpl;
             repeat case_match; simplify_eq/=;
             repeat constructor; simpl; congruence |]);
    constructor.
Qed.

Lemma label_arrays_same_length_witness :
  Forall (fun g => exists fam,
            GenerateFunc g (StatefulSetPtr labelled) initStore
              = (Returned fam, initStore) /\
            Forall (fun m => length (LabelKeys m) = length (LabelValues m))
                   (Metrics fam))
         (catalog ["a"; "c"] ["note"]).
Proof.
  apply (label_arrays_same_length LabelComposer.createLabelKeysValues
           LabelComposer.createAnnotationKeysValues ["a"; "c"] ["note"] labelled);
    reflexivity.
Defined.

(** ** Building the catalog (C8) *)

(** C8, as the code has it: building the catalog never fails and checks
    nothing.  Whatever the allow-lists are, the builder returns the ten base
    families, followed by the labels family if the label allow-list is
    non-empty and by the annotations family if the annotation allow-list is
    non-empty; each allow-list reaches its composer as it was given, at
    every extraction. *)
Theorem catalog_build_never_fails cL cA (aL aA : list string) :
  exists families,
    callStatefulSetMetricFamilies cL cA aL aA = Returned families /\
    FName <$> families =
      baseFamilyNames
      ++ match aL with [] => [] | _ :: _ => ["kube_statefulset_labels"] end
      ++ match aA with [] => [] | _ :: _ => ["kube_statefulset_annotations"] end /\
    forall s,
      emitted "kube_statefulset_labels" families s =
        match aL with
        | [] => None
        | _ :: _ =>
            Some [ withIdentity s {| LabelKeys := (cL (Labels s) aL).1;
                                     LabelValues := (cL (Labels s) aL).2;
                                     Value := float64_one |} ]
        end /\
      emitted "kube_statefulset_annotations" families s =
        match aA with
        | [] => None
        | _ :: _ =>
            Some [ withIdentity s {| LabelKeys := (cA (Annotations s) aA).1;
                                     LabelValues := (cA (Annotations s) aA).2;
                                     Value := float64_one |} ]
        end.
Proof.
  eexists; split; [reflexivity |].
  split; [by destruct aL, aA |].
  intros s.
  destruct aL as [|l aL], aA as [|a aA]; split; try reflexivity;
    (erewrite emitted_wrapped; [| reflexivity | reflexivity]);
    simpl; by case_match.
Qed.

(** C8 as stated fails: an allow-list that names [app] twice and the default
    label key [namespace] is not rejected.  The builder returns a catalog
    with the labels family in it, and with the composers of the contract
    that family then emits, for the sample object, a metric with repeated
    label keys. *)
Lemma malformed_allow_list_is_not_rejected :
  hasDuplicateKeys ["namespace"; "app"; "app"] = true /\
  collidesWithDefaultLabels ["namespace"; "app"; "app"] = true /\
  (forall p,
     callStatefulSetMetricFamilies LabelComposer.createLabelKeysValues
       LabelComposer.createAnnotationKeysValues ["namespace"; "app"; "app"] []
     <> Panicked p) /\
  exists m,
    emitted "kube_statefulset_labels" (catalog ["namespace"; "app"; "app"] []) web
      = Some [m] /\
    LabelKeys m = ["namespace"; "statefulset"; "namespace"; "app"; "app"].
Proof.
  repeat split; [discriminate |].
  eexists; split; reflexivity.
Qed.

(** ** Repeated extraction (C9) *)

(** C9: for every generator of the catalog and every StatefulSet, a first
    call returns a family and leaves the package state as it was, and a
    second call on the same object, from the state the first one left,
    returns the same family: the same metrics, with the same label keys,
    label values and values. *)
Theorem extraction_idempotent cL cA (aL aA : list string) (s : StatefulSet) :
  Forall (fun g => exists fam,
            GenerateFunc g (StatefulSetPtr s) initStore = (Returned fam, initStore) /\
            GenerateFunc g (StatefulSetPtr s)
              (GenerateFunc g (StatefulSetPtr s) initStore).2
              = (Returned fam, initStore))
         (statefulSetMetricFamilies cL cA aL aA).
Proof.
  eapply Forall_impl; [apply catalog_generates |].
  intros g [f Hf]. eexists. split; [exact Hf |].
  rewrite Hf. simpl. exact Hf.
Qed.

(** ** The type assertion of the wrapper (C10) *)

(** C10: the wrapped extractor returns a family for a StatefulSet and for
    nothing else.  On a value of another dynamic type, and on the nil
    interface, the type assertion panics: no family is returned, not even an
    empty one, and there is no error result. *)
Theorem wrapper_panics_on_other_types (f : StatefulSet -> Family) (obj : object)
    (st : Store) :
  match obj with
  | StatefulSetPtr s =>
      exists fam st', wrapStatefulSetFunc f obj st = (Returned fam, st')
  | OtherValue T =>
      wrapStatefulSetFunc f obj st = (Panicked (InterfaceConversion (Some T)), st)
  | NilInterface =>
      wrapStatefulSetFunc f obj st = (Panicked (InterfaceConversion None), st)
  end.
Proof.
  destruct obj as [s | T |]; [| reflexivity | reflexivity].
  unfold wrapStatefulSetFunc.
  destruct (prependLabels s (Metrics (f s)) st) as [ms st']. by eexists _, _.
Qed.

(** Every generator of the catalog panics in this way. *)
Lemma catalog_panics_on_other_types cL cA (aL aA : list string) (T : string)
    (st : Store) :
  Forall (fun g => GenerateFunc g (OtherValue T) st
                   = (Panicked (InterfaceConversion (Some T)), st))
         (statefulSetMetricFamilies cL cA aL aA).
Proof.
  eapply Forall_impl; [apply catalog_wrapped |].
  intros g [f Hf]. by rewrite Hf.
Qed.

(** * Further properties of the catalog and the wrapper *)

(** ** The creation timestamp *)

(** X1: the family [kube_statefulset_created] emits nothing for the zero
    time and otherwise exactly one metric, whose value is the [float64]
    conversion of the timestamp's Unix seconds, the [int64] difference of
    its seconds and 62135596800, wrap-around included; the nanoseconds play
    no part in the value. *)
Theorem created_family cL cA (aL aA : list string) (s : StatefulSet) :
  emitted "kube_statefulset_created" (statefulSetMetricFamilies cL cA aL aA) s =
    Some (if Time.IsZero (CreationTimestamp s)
          then []
          else [ {| LabelKeys := ["namespace"; "statefulset"];
                    LabelValues := [Namespace s; Name s];
                    Value := float64_of_int
                               (wrap_int64 (Time.sec (CreationTimestamp s)
                                            - 62135596800)) |} ]).
Proof.
  emitted_from_catalog aL aA; by destruct (Time.IsZero (CreationTimestamp s)).
Qed.

(** A timestamp so early that the [int64] difference wraps around is
    exported as a large positive number of seconds. *)
Example created_family_wraps :
  Time.Unix {| Time.sec := -9223371974719179009; Time.nsec := 0 |} = 2 ^ 63 - 1 /\
  float64_of_int (2 ^ 63 - 1) = float64_of_int (2 ^ 63).
Proof. split; reflexivity. Qed.

(** ** The shape of the catalog *)

(** X2: the families of a catalog have pairwise distinct names, whatever the
    allow-lists are, so a lookup by name finds each generator of the
    catalog and no other. *)
Theorem family_names_distinct cL cA (aL aA : list string) :
  NoDup (FName <$> statefulSetMetricFamilies cL cA aL aA) /\
  Forall (fun g => family (FName g) (statefulSetMetricFamilies cL cA aL aA) = Some g)
         (statefulSetMetricFamilies cL cA aL aA).
Proof.
  split.
  - destruct aL, aA; apply (bool_decide_unpack _); by vm_compute.
  - destruct aL, aA; repeat (constructor; [reflexivity |]); constructor.
Qed.

(** X3: every family of a catalog is a gauge, carries a help text and is not
    deprecated. *)
Theorem families_are_gauges cL cA (aL aA : list string) :
  Forall (fun g => FType g = Gauge /\ FDeprecatedVersion g = "" /\ FHelp g <> "")
         (statefulSetMetricFamilies cL cA aL aA).
Proof.
  destruct aL, aA; repeat (constructor; [by repeat split |]); constructor.
Qed.

(** X4: the allow-lists do not touch the ten base families, the labels
    family does not depend on the annotation allow-list, and the annotations
    family does not depend on the label allow-list and comes last. *)
Theorem catalog_decomposition cL cA (aL aA : list string) :
  take 10 (statefulSetMetricFamilies cL cA aL aA)
    = statefulSetMetricFamilies cL cA [] [] /\
  statefulSetMetricFamilies cL cA aL aA
    = statefulSetMetricFamilies cL cA aL []
      ++ drop 10 (statefulSetMetricFamilies cL cA [] aA).
Proof.
  by destruct aL, aA.
Qed.

(** X5: for every StatefulSet every family emits at most one metric: none
    for an unset creation timestamp or an absent desired replica count, and
    exactly one in every other case. *)
Theorem metrics_per_family cL cA (aL aA : list string) (s : StatefulSet) :
  Forall (fun g => exists fam,
            GenerateFunc g (StatefulSetPtr s) initStore = (Returned fam, initStore) /\
            length (Metrics fam) =
              if String.eqb (FName g) "kube_statefulset_created"
              then (if Time.IsZero (CreationTimestamp s) then 0 else 1)%nat
              else if String.eqb (FName g) "kube_statefulset_replicas"
              then (if Replicas (Spec s) is Some _ then 1 else 0)%nat
              else 1%nat)
         (statefulSetMetricFamilies cL cA aL aA).
Proof.
  unfold statefulSetMetricFamilies.
  destruct aL as [|l aL], aA as [|a aA]; simpl;
    repeat (constructor;
            [eexists; split; [apply wrap_initStore |]; simpl;
             repeat case_match; done |]);
    constructor.
Qed.

(** ** The wrapper on any extractor *)

(** [append] on a slice whose window fits its array: the result reads as
    the old elements followed by the new ones, and the slice itself keeps
    its length, its capacity and its elements, also when the new elements
    are written into its spare cells. *)
Lemma append_window (s : Slice.t) (xs : list string) :
  (Slice.len s <= Slice.cap s)%nat ->
  Slice.elems (Slice.append s xs).1 = Slice.elems s ++ xs /\
  Slice.len (Slice.append s xs).2 = Slice.len s /\
  Slice.cap (Slice.append s xs).2 = Slice.cap s /\
  Slice.elems (Slice.append s xs).2 = Slice.elems s.
Proof.
  intros Hwf. unfold Slice.append, Slice.cap in *.
  destruct (Nat.leb_spec (Slice.len s + length xs) (length (Slice.array s)))
    as [Hle|Hgt]; simpl.
  - assert (length (take (Slice.len s) (Slice.array s)) = Slice.len s) as Hlen
      by (by apply length_take_le).
    unfold Slice.elems, Slice.cap; simpl.
    repeat split.
    + rewrite app_assoc, take_app_length'; [done |].
      rewrite length_app. lia.
    + rewrite !length_app, length_drop. lia.
    + by rewrite take_app_length'.
  - repeat split. apply elems_literal.
Qed.

(** The loop of the wrapper keeps the window of the default labels. *)
Lemma prependLabels_window (s : StatefulSet) (ms : list Metric) (st : Store) :
  (Slice.len (descStatefulSetLabelsDefaultLabels st)
   <= Slice.cap (descStatefulSetLabelsDefaultLabels st))%nat ->
  Slice.len (descStatefulSetLabelsDefaultLabels (prependLabels s ms st).2)
    = Slice.len (descStatefulSetLabelsDefaultLabels st) /\
  Slice.cap (descStatefulSetLabelsDefaultLabels (prependLabels s ms st).2)
    = Slice.cap (descStatefulSetLabelsDefaultLabels st) /\
  Slice.elems (descStatefulSetLabelsDefaultLabels (prependLabels s ms st).2)
    = Slice.elems (descStatefulSetLabelsDefaultLabels st).
Proof.
  revert st. induction ms as [|m rest IH]; intros st Hwf; [done |].
  cbn [prependLabels].
  destruct (append_window _ (LabelKeys m) Hwf) as (_ & Hlen & Hcap & Helems).
  destruct (Slice.append (descStatefulSetLabelsDefaultLabels st) (LabelKeys m))
    as [keys defaults]; simpl in Hlen, Hcap, Helems.
  destruct (Slice.append (Slice.literal [Namespace s; Name s]) (LabelValues m))
    as [values unused].
  specialize (IH {| descStatefulSetLabelsDefaultLabels := defaults |}).
  destruct (prependLabels s rest {| descStatefulSetLabelsDefaultLabels := defaults |})
    as [rest' st'].
  simpl in *. rewrite <- Hlen, <- Hcap, <- Helems. apply IH. lia.
Qed.

(** X7: whatever the extractor, the object and the labels of the emitted
    metrics are, a call of a wrapped extractor never changes what a reader
    of the package-level default labels sees: their length, their capacity
    and their elements stay, even if the slice has spare capacity that
    [append] writes into. *)
Theorem wrapper_keeps_default_labels (f : StatefulSet -> Family) (obj : object)
    (st : Store) :
  (Slice.len (descStatefulSetLabelsDefaultLabels st)
   <= Slice.cap (descStatefulSetLabelsDefaultLabels st))%nat ->
  Slice.len (descStatefulSetLabelsDefaultLabels (wrapStatefulSetFunc f obj st).2)
    = Slice.len (descStatefulSetLabelsDefaultLabels st) /\
  Slice.cap (descStatefulSetLabelsDefaultLabels (wrapStatefulSetFunc f obj st).2)
    = Slice.cap (descStatefulSetLabelsDefaultLabels st) /\
  Slice.elems (descStatefulSetLabelsDefaultLabels (wrapStatefulSetFunc f obj st).2)
    = Slice.elems (descStatefulSetLabelsDefaultLabels st).
Proof.
  intros Hwf. destruct obj as [s | T |]; [| done | done].
  unfold wrapStatefulSetFunc.
  pose proof (prependLabels_window s (Metrics (f s)) st Hwf) as H.
  by destruct (prependLabels s (Metrics (f s)) st) as [ms st'].
Qed.

Lemma wrapper_keeps_default_labels_witness :
  Slice.len (descStatefulSetLabelsDefaultLabels
    (wrapStatefulSetFunc
       (fun s => {| Metrics := [ {| LabelKeys := ["revision"];
                                    LabelValues := [CurrentRevision (Status s)];
                                    Value := float64_one |} ] |})
       (StatefulSetPtr web)
       {| descStatefulSetLabelsDefaultLabels :=
            Slice.mk ["namespace"; "statefulset"; ""; ""] 2 |}).2) = 2%nat /\
  Slice.cap (descStatefulSetLabelsDefaultLabels
    (wrapStatefulSetFunc
       (fun s => {| Metrics := [ {| LabelKeys := ["revision"];
                                    LabelValues := [CurrentRevision (Status s)];
                                    Value := float64_one |} ] |})
       (StatefulSetPtr web)
       {| descStatefulSetLabelsDefaultLabels :=
            Slice.mk ["namespace"; "statefulset"; ""; ""] 2 |}).2) = 4%nat /\
  Slice.elems (descStatefulSetLabelsDefaultLabels
    (wrapStatefulSetFunc
       (fun s => {| Metrics := [ {| LabelKeys := ["revision"];
                                    LabelValues := [CurrentRevision (Status s)];
                                    Value := float64_one |} ] |})
       (StatefulSetPtr web)
       {| descStatefulSetLabelsDefaultLabels :=
            Slice.mk ["namespace"; "statefulset"; ""; ""] 2 |}).2)
    = ["namespace"; "statefulset"].
Proof.
  apply (wrapper_keeps_default_labels
           (fun s => {| Metrics := [ {| LabelKeys := ["revision"];
                                        LabelValues := [CurrentRevision (Status s)];
                                        Value := float64_one |} ] |})
           (StatefulSetPtr web)
           {| descStatefulSetLabelsDefaultLabels :=
                Slice.mk ["namespace"; "statefulset"; ""; ""] 2 |}).
  unfold Slice.cap; simpl. lia.
Defined.

(** ** Distinct label keys *)

(** X8: no metric of any family has a label key twice, as long as the keys
    a composer returns for the object are distinct and are neither
    [namespace] nor [statefulset]; the ten base families need no
    condition. *)
Theorem label_keys_distinct cL cA (aL aA : list string) (s : StatefulSet) :
  (aL <> [] -> NoDup (["namespace"; "statefulset"] ++ (cL (Labels s) aL).1)) ->
  (aA <> [] -> NoDup (["namespace"; "statefulset"] ++ (cA (Annotations s) aA).1)) ->
  Forall (fun g => exists fam,
            GenerateFunc g (StatefulSetPtr s) initStore = (Returned fam, initStore) /\
            Forall (fun m => NoDup (LabelKeys m)) (Metrics fam))
         (statefulSetMetricFamilies cL cA aL aA).
Proof.
  intros HL HA. unfold statefulSetMetricFamilies.
  destruct aL as [|l aL], aA as [|a aA]; simpl;
    try specialize (HL ltac:(done)); try specialize (HA ltac:(done));
    repeat (constructor;
            [eexists; split; [apply wrap_initStore |]; simpl;
             repeat case_match; simplify_eq/=;
             repeat (apply Forall_cons; split); try apply Forall_nil;
             first [done | by apply (bool_decide_unpack _)] |]);
    constructor.
Qed.

Lemma label_keys_distinct_witness :
  Forall (fun g => exists fam,
            GenerateFunc g (StatefulSetPtr labelled) initStore
              = (Returned fam, initStore) /\
            Forall (fun m => NoDup (LabelKeys m)) (Metrics fam))
         (catalog ["a"; "c"] ["note"]).
Proof.
  apply (label_keys_distinct LabelComposer.createLabelKeysValues
           LabelComposer.createAnnotationKeysValues ["a"; "c"] ["note"] labelled);
    intros _; apply (bool_decide_unpack _); vm_compute; exact I.
Defined.

(** ** Exact values *)

Lemma digits2_pos_size (p : positive) : digits2_pos p = Pos.size p.
Proof. induction p; simpl; congruence. Qed.

Lemma digits2_pos_bound (p : positive) :
  Z.pos p < 2 ^ 53 -> Z.pos (digits2_pos p) <= 53.
Proof.
  intros Hp. rewrite digits2_pos_size.
  pose proof (Pos.size_le p) as Hle.
  apply Pos2Z.pos_le_pos in Hle. rewrite Pos2Z.inj_pow in Hle.
  change (Z.pos p~0) with (2 * Z.pos p) in Hle.
  assert (2 ^ Z.pos (Pos.size p) < 2 ^ 54) as Hlt.
  { change (2 ^ 54) with (2 * 2 ^ 53). lia. }
  apply Z.pow_lt_mono_r_iff in Hlt; lia.
Qed.

Lemma digits2_pos_shift (p k : positive) :
  digits2_pos (Pos.iter xO p k) = (digits2_pos p + k)%positive.
Proof.
  induction k as [|k IH] using Pos.peano_ind.
  - simpl. lia.
  - rewrite Pos.iter_succ. simpl. rewrite IH. lia.
Qed.

Lemma shift_value (p k : positive) :
  Z.pos (Pos.iter xO p k) = Z.pos p * 2 ^ Z.pos k.
Proof.
  pose proof (shift_pos_correct k p) as H. unfold shift_pos in H.
  rewrite H. unfold Z.pow. lia.
Qed.

(** A mantissa of 53 digits with an exponent in range is kept as it is. *)
Lemma round_aux_exact (sx : bool) (m : positive) (e : Z) :
  Z.pos (digits2_pos m) = 53 -> -52 <= e <= 0 ->
  binary_round_aux 53 1024 sx (Z.pos m) e loc_Exact = S754_finite sx m e.
Proof.
  intros Hd He.
  unfold binary_round_aux, shr_fexp, fexp, emin, Zdigits2, shr_record_of_loc.
  rewrite Hd.
  replace (Z.max (53 + e - 53) (3 - 1024 - 53) - e) with 0 by lia.
  cbn [shr shr_m loc_of_shr_record round_nearest_even].
  rewrite Hd.
  replace (Z.max (53 + e - 53) (3 - 1024 - 53) - e) with 0 by lia.
  cbn [shr shr_m].
  destruct (Z.leb_spec e (1024 - 53)); [reflexivity | lia].
Qed.

(** An integer below 2^53 is normalised by a shift to the left alone. *)
Lemma binary_round_exact (sx : bool) (p : positive) :
  Z.pos p < 2 ^ 53 ->
  exists m e, binary_round 53 1024 sx p 0 = S754_finite sx m e /\
              -52 <= e <= 0 /\ Z.pos m = Z.pos p * 2 ^ (- e).
Proof.
  intros Hp. pose proof (digits2_pos_bound p Hp) as Hd.
  unfold binary_round, shl_align, fexp, emin.
  rewrite Z.max_l by lia.
  destruct (Z.pos (digits2_pos p) + 0 - 53 - 0) as [|q|q] eqn:E; [| lia |].
  - exists p, 0. split; [apply round_aux_exact; lia |]. split; [lia |].
    simpl. lia.
  - exists (Pos.iter xO p q), (Z.pos (digits2_pos p) + 0 - 53).
    split; [apply round_aux_exact; [rewrite digits2_pos_shift; lia | lia] |].
    split; [lia |].
    rewrite shift_value. f_equal. f_equal. lia.
Qed.

Lemma float64_to_int_finite (sx : bool) (m : positive) (e n : Z) :
  -52 <= e <= 0 -> Z.pos m = n * 2 ^ (- e) ->
  float64_to_int (S754_finite sx m e) = Some (if sx then - n else n).
Proof.
  intros He Hm. unfold float64_to_int.
  assert (0 < 2 ^ (- e)) by (apply Z.pow_pos_nonneg; lia).
  destruct (Z.leb_spec 0 e) as [H0|H0].
  - assert (e = 0) as -> by lia. simpl in Hm. f_equal. destruct sx; lia.
  - assert ((if sx then Z.neg m else Z.pos m)
            = (if sx then - n else n) * 2 ^ (- e)) as ->.
    { destruct sx; [| exact Hm]. rewrite <- Pos2Z.opp_pos, Hm. lia. }
    rewrite Z.mod_mul by lia. simpl. rewrite Z.div_mul by lia. reflexivity.
Qed.

(** Integers of magnitude at most 2^53 survive the conversion. *)
Lemma float64_of_int_exact (n : Z) :
  - 2 ^ 53 <= n <= 2 ^ 53 -> float64_to_int (float64_of_int n) = Some n.
Proof.
  intros Hn.
  destruct (Z.eq_dec n (2 ^ 53)) as [-> | Hhi]; [reflexivity |].
  destruct (Z.eq_dec n (- 2 ^ 53)) as [-> | Hlo]; [reflexivity |].
  unfold float64_of_int, binary_normalize.
  destruct n as [|p|p]; [reflexivity | |].
  - destruct (binary_round_exact false p) as (m & e & -> & He & Hm); [lia |].
    apply (float64_to_int_finite false m e (Z.pos p) He Hm).
  - destruct (binary_round_exact true p) as (m & e & -> & He & Hm).
    { pose proof (Pos2Z.opp_pos p). lia. }
    apply (float64_to_int_finite true m e (Z.pos p) He Hm).
Qed.

(** X10: the conversion to [float64] that every extractor applies loses
    nothing on an integer of magnitude at most 2^53, which covers every
    [int32]: the float reads back as the integer it came from. *)
Theorem float64_round_trip (n : Z) :
  - 2 ^ 53 <= n <= 2 ^ 53 -> float64_to_int (float64_of_int n) = Some n.
Proof. apply float64_of_int_exact. Qed.

Lemma float64_round_trip_witness :
  float64_to_int (float64_of_int (-2147483648)) = Some (-2147483648).
Proof.
  apply (float64_round_trip (-2147483648)). simpl. lia.
Defined.

(** Above 2^53 the conversion rounds: two generations one apart can be
    exported as the same value. *)
Example float64_rounds_above_2_53 :
  float64_of_int (2 ^ 53 + 1) = float64_of_int (2 ^ 53).
Proof. reflexivity. Qed.

(** X11: a counter family whose field is of magnitude at most 2^53 exports
    it exactly, whatever the other fields of the object are: the value of
    the one metric it emits reads back as the field. *)
Theorem counters_exported_exactly cL cA (aL aA : list string) (s : StatefulSet)
    (name : string) (field : Z) :
  (name, field) ∈ counterFields s ->
  - 2 ^ 53 <= field <= 2 ^ 53 ->
  exists m,
    emitted name (statefulSetMetricFamilies cL cA aL aA) s = Some [m] /\
    float64_to_int (Value m) = Some field.
Proof.
  intros Hin Hrange. unfold counterFields in Hin.
  repeat (apply elem_of_cons in Hin as [Heq | Hin];
          [injection Heq as -> ->; eexists; split;
             [by emitted_from_catalog aL aA | by apply float64_of_int_exact] |]).
  by apply elem_of_nil in Hin.
Qed.

Lemma counters_exported_exactly_witness :
  exists m,
    emitted "kube_statefulset_status_replicas_ready" (catalog [] []) worn = Some [m] /\
    float64_to_int (Value m) = Some 3.
Proof.
  apply (counters_exported_exactly LabelComposer.createLabelKeysValues
           LabelComposer.createAnnotationKeysValues [] [] worn
           "kube_statefulset_status_replicas_ready" 3).
  - unfold counterFields. repeat constructor.
  - simpl. lia.
Defined.

(** ** Metric structs in memory *)

(** Appending to default labels without spare capacity leaves them as they
    are, and the result reads as the default labels followed by the new
    elements, wherever it lies. *)
Lemma appendToDefaults_full (d : Slice.t) (xs : list string) :
  Slice.len d = Slice.cap d ->
  (appendToDefaults d xs).2 = d /\
  readSlice {| descStatefulSetLabelsDefaultLabels := d |} (appendToDefaults d xs).1
    = Slice.elems d ++ xs.
Proof.
  intros Hfull. unfold appendToDefaults.
  destruct (append_full d xs Hfull) as [Helems Hd].
  destruct (Slice.append d xs) as [r d'] eqn:Happ; simpl in *. subst d'.
  split; [done |].
  destruct (Nat.leb_spec (Slice.len d + length xs) (Slice.cap d)) as [Hle|Hgt];
    simpl; [| done].
  assert (xs = []) as -> by (destruct xs; [done | simpl in Hle; lia]).
  unfold Slice.append in Happ. rewrite Nat.add_0_r in Happ.
  rewrite (proj2 (Nat.leb_le _ _)) in Happ by lia.
  injection Happ as <- _. simpl. by rewrite app_nil_r.
Qed.

Lemma appendToDefaults_initStore (xs : list string) :
  (appendToDefaults (descStatefulSetLabelsDefaultLabels initStore) xs).2
    = descStatefulSetLabelsDefaultLabels initStore /\
  readSlice initStore
    (appendToDefaults (descStatefulSetLabelsDefaultLabels initStore) xs).1
    = ["namespace"; "statefulset"] ++ xs.
Proof.
  exact (appendToDefaults_full (descStatefulSetLabelsDefaultLabels initStore)
           xs eq_refl).
Qed.

(** The loop on pointers from the initial store: it panics on no allocated
    pointer, leaves the store as it is, puts the identity labels in front
    of the labels of a struct once for each time the struct is listed, and
    leaves every other struct alone. *)
Lemma prependLabelsAt_initStore (s : StatefulSet) (ps : list positive)
    (h : gmap positive MetricStruct) :
  Forall (fun p => is_Some (h !! p)) ps ->
  exists h',
    prependLabelsAt s ps h initStore = Some (h', initStore) /\
    (forall p, readMetric initStore <$> h' !! p =
               Nat.iter (count_occ Pos.eq_dec ps p) (withIdentity s)
                 <$> (readMetric initStore <$> h !! p)) /\
    (forall q, q ∉ ps -> h' !! q = h !! q).
Proof.
  revert h. induction ps as [|p0 rest IH]; intros h Halloc.
  - exists h. split; [done |]. split; [| done].
    intros p. simpl. by destruct (h !! p).
  - apply Forall_cons_1 in Halloc as [[m Hm] Hrest].
    cbn [prependLabelsAt]. rewrite Hm.
    destruct (appendToDefaults_initStore (readSlice initStore (KeysAt m)))
      as [Hd Hkeys].
    destruct (appendToDefaults (descStatefulSetLabelsDefaultLabels initStore)
                (readSlice initStore (KeysAt m))) as [keys defaults].
    cbn [fst snd] in Hd, Hkeys. subst defaults.
    change {| descStatefulSetLabelsDefaultLabels :=
                descStatefulSetLabelsDefaultLabels initStore |} with initStore.
    pose proof (append_literal [Namespace s; Name s]
                  (readSlice initStore (ValuesAt m))) as Hvalues.
    destruct (Slice.append (Slice.literal [Namespace s; Name s])
                (readSlice initStore (ValuesAt m))) as [values unused].
    simpl in Hvalues.
    set (m' := {| KeysAt := keys; ValuesAt := Own (Slice.elems values);
                  ValueAt := ValueAt m |}).
    assert (readMetric initStore m' = withIdentity s (readMetric initStore m)) as Hm'.
    { unfold readMetric, withIdentity; simpl. by rewrite Hkeys, Hvalues. }
    destruct (IH (<[p0 := m']> h)) as (h' & Hrun & Hread & Hframe).
    { eapply Forall_impl; [exact Hrest |]. intros p Hp. simpl.
      destruct (decide (p0 = p)) as [-> | Hne];
        [rewrite lookup_insert_eq; by eexists | by rewrite lookup_insert_ne]. }
    exists h'. split; [exact Hrun |]. split.
    + intros p. rewrite Hread. cbn [count_occ].
      destruct (Pos.eq_dec p0 p) as [-> | Hne].
      * rewrite lookup_insert_eq, Hm. simpl. by rewrite Hm', Nat.iter_swap.
      * by rewrite lookup_insert_ne.
    + intros q Hq. apply not_elem_of_cons in Hq as [Hne Hq].
      rewrite Hframe by done. by rewrite lookup_insert_ne.
Qed.

(** X6: on the metric structs of a family as they lie in memory, the loop of
    the wrapper puts the default label keys and the object's namespace and
    name in front of the labels of a struct once for each time the family
    lists it, and leaves its value; a struct listed twice gets them twice.
    No listed pointer being nil, the loop does not panic, and the package
    state is left as it was. *)
Theorem labels_prepended_per_occurrence (s : StatefulSet) (ps : list positive)
    (h : gmap positive MetricStruct) :
  Forall (fun p => is_Some (h !! p)) ps ->
  exists h',
    prependLabelsAt s ps h initStore = Some (h', initStore) /\
    forall p, readMetric initStore <$> h' !! p =
              Nat.iter (count_occ Pos.eq_dec ps p) (withIdentity s)
                <$> (readMetric initStore <$> h !! p).
Proof.
  intros Halloc.
  destruct (prependLabelsAt_initStore s ps h Halloc) as (h' & Hrun & Hread & _).
  by exists h'.
Qed.

Lemma labels_prepended_per_occurrence_witness :
  exists h',
    prependLabelsAt web [1%positive; 1%positive]
      {[ 1%positive := {| KeysAt := Own ["revision"]; ValuesAt := Own ["web-7c9"];
                          ValueAt := float64_one |} ]}
      initStore = Some (h', initStore) /\
    forall p, readMetric initStore <$> h' !! p =
              Nat.iter (count_occ Pos.eq_dec [1%positive; 1%positive] p)
                       (withIdentity web)
                <$> (readMetric initStore
                       <$> ({[ 1%positive :=
                                 {| KeysAt := Own ["revision"];
                                    ValuesAt := Own ["web-7c9"];
                                    ValueAt := float64_one |} ]}
                             : gmap positive MetricStruct) !! p).
Proof.
  apply (labels_prepended_per_occurrence web [1%positive; 1%positive]).
  repeat constructor; by eexists.
Defined.

(** A struct listed twice reads with the identity labels twice. *)
Example struct_listed_twice :
  exists h',
    prependLabelsAt web [1%positive; 1%positive]
      {[ 1%positive := {| KeysAt := Own ["revision"]; ValuesAt := Own ["web-7c9"];
                          ValueAt := float64_one |} ]}
      initStore = Some (h', initStore) /\
    readMetric initStore <$> h' !! 1%positive =
      Some {| LabelKeys := ["namespace"; "statefulset";
                            "namespace"; "statefulset"; "revision"];
              LabelValues := ["ns1"; "web"; "ns1"; "web"; "web-7c9"];
              Value := float64_one |}.
Proof. eexists; split; [reflexivity |]. by vm_compute. Qed.

(** With spare capacity in the default labels the keys of the structs lie on
    one array: the keys the second struct gets overwrite those of the
    first. *)
Example spare_capacity_shares_keys :
  exists h' st',
    prependLabelsAt web [1%positive; 2%positive]
      (<[ 1%positive := {| KeysAt := Own ["a"]; ValuesAt := Own ["1"];
                           ValueAt := float64_one |} ]>
         {[ 2%positive := {| KeysAt := Own ["b"]; ValuesAt := Own ["2"];
                             ValueAt := float64_one |} ]})
      {| descStatefulSetLabelsDefaultLabels :=
           Slice.mk ["namespace"; "statefulset"; ""; ""] 2 |}
      = Some (h', st') /\
    LabelKeys <$> (readMetric st' <$> h' !! 1%positive)
      = Some ["namespace"; "statefulset"; "b"].
Proof. eexists _, _; split; [reflexivity |]. by vm_compute. Qed.

(** Reading through a list of pointers commutes with a change made to every
    struct the list names. *)
Lemma omap_changed {A B} (g g' : A -> option B) (F : B -> B) (l : list A) :
  (forall p, p ∈ l -> g' p = F <$> g p) -> omap g' l = F <$> omap g l.
Proof.
  induction l as [|a l IH]; intros Hl; [done |].
  cbn [omap list_omap]. rewrite (Hl a) by left.
  rewrite IH by (intros p Hp; apply Hl; by right).
  by destruct (g a).
Qed.

(** X9: when the family lists each struct once, as the extractors of the
    catalog do, the loop on pointers does what the loop on values says: the
    metrics read through the family's pointers afterwards are the result of
    [prependLabels] on the metrics read before.  Structs the family does not
    list, such as those an earlier call returned, are left as they were, and
    so is the package state. *)
Theorem distinct_structs_as_values (s : StatefulSet) (ps : list positive)
    (h : gmap positive MetricStruct) :
  NoDup ps ->
  Forall (fun p => is_Some (h !! p)) ps ->
  exists h',
    prependLabelsAt s ps h initStore = Some (h', initStore) /\
    omap (fun p => readMetric initStore <$> h' !! p) ps =
      (prependLabels s (omap (fun p => readMetric initStore <$> h !! p) ps)
         initStore).1 /\
    forall q, q ∉ ps -> h' !! q = h !! q.
Proof.
  intros Hnodup Halloc.
  destruct (prependLabelsAt_initStore s ps h Halloc) as (h' & Hrun & Hread & Hframe).
  exists h'. split; [exact Hrun |]. split; [| exact Hframe].
  rewrite prependLabels_full by done. cbn [fst].
  apply (omap_changed (fun p => readMetric initStore <$> h !! p)
           (fun p => readMetric initStore <$> h' !! p) (withIdentity s)).
  intros p Hp. rewrite Hread.
  apply NoDup_ListNoDup in Hnodup.
  rewrite (proj1 (NoDup_count_occ' Pos.eq_dec ps) Hnodup p)
    by (by apply list_elem_of_In).
  done.
Qed.

Lemma distinct_structs_as_values_witness :
  exists h',
    prependLabelsAt web [1%positive; 2%positive]
      (<[ 1%positive := {| KeysAt := Own ["revision"]; ValuesAt := Own ["web-7c9"];
                           ValueAt := float64_one |} ]>
         (<[ 2%positive := {| KeysAt := Own []; ValuesAt := Own [];
                              ValueAt := float64_of_int 3 |} ]>
            {[ 3%positive := {| KeysAt := OnDefaults 2; ValuesAt := Own ["ns1"; "db"];
                                ValueAt := float64_one |} ]}))
      initStore = Some (h', initStore) /\
    omap (fun p => readMetric initStore <$> h' !! p) [1%positive; 2%positive] =
      (prependLabels web
         (omap (fun p => readMetric initStore
                  <$> (<[ 1%positive := {| KeysAt := Own ["revision"];
                                           ValuesAt := Own ["web-7c9"];
                                           ValueAt := float64_one |} ]>
                         (<[ 2%positive := {| KeysAt := Own []; ValuesAt := Own [];
                                              ValueAt := float64_of_int 3 |} ]>
                            {[ 3%positive := {| KeysAt := OnDefaults 2;
                                                ValuesAt := Own ["ns1"; "db"];
                                                ValueAt := float64_one |} ]})
                         : gmap positive MetricStruct) !! p)
               [1%positive; 2%positive])
         initStore).1 /\
    forall q, q ∉ [1%positive; 2%positive] ->
      h' !! q =
        (<[ 1%positive := {| KeysAt := Own ["revision"]; ValuesAt := Own ["web-7c9"];
                             ValueAt := float64_one |} ]>
           (<[ 2%positive := {| KeysAt := Own []; ValuesAt := Own [];
                                ValueAt := float64_of_int 3 |} ]>
              {[ 3%positive := {| KeysAt := OnDefaults 2;
                                  ValuesAt := Own ["ns1"; "db"];
                                  ValueAt := float64_one |} ]})
           : gmap positive MetricStruct) !! q.
Proof.
  apply (distinct_structs_as_values web [1%positive; 2%positive]).
  - apply (bool_decide_unpack _). vm_compute. exact I.
  - repeat constructor; by eexists.
Defined.
